(** * Hall ticket system (alsu.py): record store, code payload, subject table

    A shallow embedding of the parts of [alsu.py] that carry behaviour of
    their own: the CSV-backed record store ([load_database],
    [save_to_database], [delete_from_database]), the QR payload
    ([create_scannable_qr_data]) and its decoding in
    [create_qr_download_endpoint], the QR rasterizer ([generate_qr_code]),
    the page and the files of [generate_hall_ticket_pdf], the download link,
    and the generation, browse and download pages of [main] as far as they
    read or change the store and the files.  The search box of the browse page
    matches with regular expressions and is left out.

    Python text is modelled by [string]; a character is a code point below
    256.  Library calls (pandas, PIL, qrcode, ast) are modelled by what the
    program observes of them; each such model says so where it is defined. *)

From Stdlib Require Import ZArith String Ascii List Bool Lia.
From stdpp Require Import base list strings gmap pretty.

Open Scope string_scope.
Set Warnings "-register-all".

(** ** Python text *)

Module PyText.

(** The characters with a role in [repr], [strip] and literal syntax. *)
Definition squote : ascii := "039".
Definition dquote : ascii := "034".
Definition backslash : ascii := "092".
Definition tab : ascii := "009".
Definition newline : ascii := "010".
Definition creturn : ascii := "013".

Definition code (c : ascii) : N := N_of_ascii c.

(** [str.isspace] on one character, for code points below 256. *)
Definition isspace (c : ascii) : bool :=
  let n := code c in
  ((9 <=? n) && (n <=? 13) || (28 <=? n) && (n <=? 32)
   || (n =? 133) || (n =? 160))%N.

Fixpoint lstrip (s : string) : string :=
  match s with
  | String c r => if isspace c then lstrip r else s
  | EmptyString => EmptyString
  end.

Fixpoint rstrip (s : string) : string :=
  match s with
  | String c r =>
      match rstrip r with
      | EmptyString => if isspace c then EmptyString else String c EmptyString
      | r' => String c r'
      end
  | EmptyString => EmptyString
  end.

(** [s.strip()] *)
Definition strip (s : string) : string := rstrip (lstrip s).

(** [s.split(sep)] for a one-character separator: every occurrence
    cuts, and the result always has at least one item. *)
Fixpoint split (sep : ascii) (s : string) : list string :=
  match s with
  | EmptyString => [EmptyString]
  | String c r =>
      if Ascii.eqb c sep then EmptyString :: split sep r
      else match split sep r with
           | h :: t => String c h :: t
           | [] => [String c EmptyString]
           end
  end.

Fixpoint contains (c : ascii) (s : string) : bool :=
  match s with
  | EmptyString => false
  | String d r => Ascii.eqb d c || contains c r
  end.

(** Truth value of a string: [bool(s)]. *)
Definition nonempty (s : string) : bool :=
  match s with EmptyString => false | _ => true end.

(** [sep.join(items)] *)
Fixpoint join (sep : string) (items : list string) : string :=
  match items with
  | [] => EmptyString
  | [x] => x
  | x :: rest => x ++ sep ++ join sep rest
  end.

End PyText.

(** ** Python values *)

Module PyValue.
Import PyText.

(** The values a [subjects] entry, or a literal read by
    [ast.literal_eval], can hold.  [PyNaN] is the float pandas gives an
    empty cell; a dict is kept as its items in insertion order. *)
Inductive pyobj : Type :=
| PyNone
| PyBool (b : bool)
| PyInt (n : Z)
| PyNaN
| PyStr (s : string)
| PyList (items : list pyobj)
| PyTuple (items : list pyobj)
| PyDict (items : list (pyobj * pyobj)).

Definition hex_digit (n : N) : ascii :=
  match n with
  | 0 => "0" | 1 => "1" | 2 => "2" | 3 => "3" | 4 => "4" | 5 => "5"
  | 6 => "6" | 7 => "7" | 8 => "8" | 9 => "9" | 10 => "a" | 11 => "b"
  | 12 => "c" | 13 => "d" | 14 => "e" | _ => "f"
  end%N%char.

(** [\xhh] for a character: backslash, [x], two lower-case hex digits. *)
Definition hex_escape (c : ascii) : string :=
  String backslash
    (String "x" (String (hex_digit (code c / 16))
                   (String (hex_digit (code c mod 16)) EmptyString))).

(** [str.isprintable] for the code points from 128 to 255: the C1
    controls, the no-break space and the soft hyphen are not. *)
Definition isprintable_high (c : ascii) : bool :=
  ((161 <=? code c) && negb (code c =? 173))%N.

(** One character of [repr(s)] between the quotes, in the order CPython's
    [unicode_repr] tests it. *)
Definition escape_char (quote c : ascii) : string :=
  if Ascii.eqb c quote || Ascii.eqb c backslash then
    String backslash (String c EmptyString)
  else if Ascii.eqb c tab then String backslash "t"
  else if Ascii.eqb c newline then String backslash "n"
  else if Ascii.eqb c creturn then String backslash "r"
  else if ((code c <? 32) || (code c =? 127))%N then hex_escape c
  else if (code c <? 127)%N then String c EmptyString
  else if isprintable_high c then String c EmptyString
  else hex_escape c.

Fixpoint escape_body (quote : ascii) (s : string) : string :=
  match s with
  | EmptyString => EmptyString
  | String c r => escape_char quote c ++ escape_body quote r
  end.

(** The quote [repr] picks: double quotes only when the text has a single
    quote and no double quote. *)
Definition repr_quote (s : string) : ascii :=
  if contains squote s && negb (contains dquote s) then dquote else squote.

(** [repr(s)] of a string. *)
Definition str_repr (s : string) : string :=
  let q := repr_quote s in
  String q (escape_body q s ++ String q EmptyString).

(** [repr(v)] *)
Fixpoint py_repr (v : pyobj) : string :=
  match v with
  | PyNone => "None"
  | PyBool b => if b then "True" else "False"
  | PyInt n => pretty n
  | PyNaN => "nan"
  | PyStr s => str_repr s
  | PyList items => "[" ++ join ", " (map py_repr items) ++ "]"
  | PyTuple items =>
      match items with
      | [x] => "(" ++ py_repr x ++ ",)"
      | _ => "(" ++ join ", " (map py_repr items) ++ ")"
      end
  | PyDict items =>
      "{" ++ join ", "
               (map (fun kv => match kv with
                               | (k, x) => py_repr k ++ ": " ++ py_repr x
                               end) items)
          ++ "}"
  end.

(** [str(v)]: the text itself for a string, [repr] for the rest. *)
Definition py_str (v : pyobj) : string :=
  match v with
  | PyStr s => s
  | _ => py_repr v
  end.

(** [bool(v)], as [if not subjects] reads it. *)
Definition py_truthy (v : pyobj) : bool :=
  match v with
  | PyNone => false
  | PyBool b => b
  | PyInt n => negb (n =? 0)%Z
  | PyNaN => true
  | PyStr s => nonempty s
  | PyList items | PyTuple items => negb (Nat.eqb (length items) 0)
  | PyDict items => negb (Nat.eqb (length items) 0)
  end.

End PyValue.

(** ** Record store *)

Module Store.
Import PyText PyValue.

(** A cell of one of the eight scalar columns, as the DataFrame holds it:
    text, an integer, or NaN for an empty cell. *)
Inductive cell : Type :=
| CStr (s : string)
| CInt (n : Z)
| CNaN.

(** Elementwise [==] of a column against a scalar: values of different
    types are unequal, and NaN equals nothing. *)
Definition cell_eq (a b : cell) : bool :=
  match a, b with
  | CStr x, CStr y => String.eqb x y
  | CInt x, CInt y => (x =? y)%Z
  | _, _ => false
  end.

(** Elementwise [!=]. *)
Definition cell_ne (a b : cell) : bool := negb (cell_eq a b).

(** [str(c)], as an f-string formats a cell. *)
Definition cell_str (c : cell) : string :=
  match c with
  | CStr s => s
  | CInt n => pretty n
  | CNaN => "nan"
  end.

(** One row of the DataFrame: the nine columns of the store. *)
Record row : Type := Row {
  id : cell;
  name : cell;
  roll_number : cell;
  program : cell;
  semester : cell;
  exam_date : cell;
  seat_number : cell;
  hall_ticket_id : cell;
  subjects : pyobj
}.

(** One subject of the form: [{'code': .., 'name': .., 'date': ..}]. *)
Record subject : Type := Subject {
  subject_code : string;
  subject_name : string;
  subject_date : string
}.

Definition subject_dict (s : subject) : pyobj :=
  PyDict [ (PyStr "code", PyStr (subject_code s));
           (PyStr "name", PyStr (subject_name s));
           (PyStr "date", PyStr (subject_date s)) ].

(** [repr] of a subject dict followed by [rest], written out. *)
Definition subject_text (e : subject) (rest : string) : string :=
  String "{"
    (str_repr "code" ++ String ":" (String " "
    (str_repr (subject_code e) ++ String "," (String " "
    (str_repr "name" ++ String ":" (String " "
    (str_repr (subject_name e) ++ String "," (String " "
    (str_repr "date" ++ String ":" (String " "
    (str_repr (subject_date e) ++ String "}" rest))))))))))).

(** The items of [repr] of a list of subject dicts, from after the opening
    bracket on, followed by [rest]. *)
Fixpoint subjects_text (l : list subject) (rest : string) : string :=
  match l with
  | [] => String "]" rest
  | [e] => subject_text e (String "]" rest)
  | e :: l => subject_text e (String "," (String " " (subjects_text l rest)))
  end.

(** The dict [main] builds from the form: every scalar is text, and
    [subjects] is the list of subject dicts. *)
Record student_data : Type := StudentData {
  sd_id : string;
  sd_name : string;
  sd_roll_number : string;
  sd_program : string;
  sd_semester : string;
  sd_exam_date : string;
  sd_seat_number : string;
  sd_hall_ticket_id : string;
  sd_subjects : list subject
}.

(** The dict as a row: [pd.DataFrame([student_data])] has this one row. *)
Definition record_row (sd : student_data) : row :=
  {| id := CStr (sd_id sd);
     name := CStr (sd_name sd);
     roll_number := CStr (sd_roll_number sd);
     program := CStr (sd_program sd);
     semester := CStr (sd_semester sd);
     exam_date := CStr (sd_exam_date sd);
     seat_number := CStr (sd_seat_number sd);
     hall_ticket_id := CStr (sd_hall_ticket_id sd);
     subjects := PyList (map subject_dict (sd_subjects sd)) |}.

Record DataFrame : Type := {
  columns : list string;
  rows : list row
}.

(** The column list of both [pd.DataFrame(columns=[...])] calls, which is
    also the key order of the form's dict. *)
Definition db_columns : list string :=
  [ "id"; "name"; "roll_number"; "program"; "semester";
    "exam_date"; "seat_number"; "hall_ticket_id"; "subjects" ].

Definition empty_frame : DataFrame := {| columns := db_columns; rows := [] |}.

(** [df[mask]] for a mask computed row by row. *)
Definition df_select (keep : row -> bool) (df : DataFrame) : DataFrame :=
  {| columns := columns df; rows := List.filter keep (rows df) |}.

(** [df.empty] (every frame here has columns, so it is about the rows). *)
Definition df_empty (df : DataFrame) : bool :=
  match rows df with [] => true | _ => false end.

(** [pd.concat([df, pd.DataFrame([student_data])], ignore_index=True)]:
    the rows of [df], then the new row; the labels are the union. *)
Definition df_concat_record (df : DataFrame) (sd : student_data) : DataFrame :=
  {| columns := columns df
       ++ List.filter (fun c => negb (existsb (String.eqb c) (columns df)))
            db_columns;
     rows := rows df ++ [record_row sd] |}.

(** What the text of the file keeps of a [subjects] cell: a string is
    written as it is, a missing value as an empty cell (read back as NaN),
    and any other object as its [str].  The scalar columns are kept as the
    values the program compares; how [read_csv] infers a column's type from
    its text is not modelled. *)
Definition csv_subjects (v : pyobj) : pyobj :=
  match v with
  | PyStr s => PyStr s
  | PyNone | PyNaN => PyNaN
  | _ => PyStr (py_str v)
  end.

Definition csv_row (r : row) : row :=
  {| id := id r; name := name r; roll_number := roll_number r;
     program := program r; semester := semester r;
     exam_date := exam_date r; seat_number := seat_number r;
     hall_ticket_id := hall_ticket_id r;
     subjects := csv_subjects (subjects r) |}.

(** [assets/student_database.csv]: absent, present with content that
    [pd.read_csv] raises on (with the exception's text), or the table last
    written by [to_csv]. *)
Inductive db_file : Type :=
| Missing
| Unreadable (why : string)
| Csv (df : DataFrame).

Inductive level : Type := Error | Warning | Success.

(** What the program can observe and change: the store's file, the files
    of [TEMP_DIR] by name, and the messages shown by [st.error] and the
    like, oldest first. *)
Record world : Type := World {
  db : db_file;
  temp_dir : gset string;
  shown : list (level * string)
}.

Definition st_error (msg : string) (w : world) : world :=
  {| db := db w; temp_dir := temp_dir w; shown := shown w ++ [(Error, msg)] |}.

(** [df.to_csv(db_path, index=False)] *)
Definition to_csv (df : DataFrame) (w : world) : world :=
  {| db := Csv df; temp_dir := temp_dir w; shown := shown w |}.

(** [pd.read_csv] of a table written by [to_csv]. *)
Definition read_csv (df : DataFrame) : DataFrame :=
  {| columns := columns df; rows := map csv_row (rows df) |}.

Definition load_database (w : world) : DataFrame * world :=
  match db w with
  | Csv df => (read_csv df, w)
  | Missing => (empty_frame, to_csv empty_frame w)
  | Unreadable why =>
      (empty_frame, st_error ("Error loading database: " ++ why) w)
  end.

(** [load_database] raises nothing and writing is taken to succeed, so the
    [except] branch of the two functions below is never entered. *)
Definition save_to_database (sd : student_data) (w : world) : bool * world :=
  let (df, w) := load_database w in
  let key := CStr (sd_roll_number sd) in
  let df :=
    if negb (df_empty (df_select (fun r => cell_eq (roll_number r) key) df))
    then df_select (fun r => cell_ne (roll_number r) key) df
    else df in
  let df := df_concat_record df sd in
  (true, to_csv df w).

(** [TEMP_DIR / f"hall_ticket_{roll_number}_{hall_ticket_id}.pdf"], as the
    file's name inside [TEMP_DIR]. *)
Definition pdf_name (roll ticket : cell) : string :=
  "hall_ticket_" ++ cell_str roll ++ "_" ++ cell_str ticket ++ ".pdf".

Definition delete_from_database (roll ticket : cell) (w : world)
  : bool * world :=
  let (df, w) := load_database w in
  let df :=
    df_select (fun r => cell_ne (roll_number r) roll
                        || cell_ne (hall_ticket_id r) ticket) df in
  let w := to_csv df w in
  let pdf_path := pdf_name roll ticket in
  let w :=
    if bool_decide (pdf_path ∈ temp_dir w)
    then {| db := db w; temp_dir := temp_dir w ∖ {[ pdf_path ]};
            shown := shown w |}
    else w in
  (true, w).

(** The record of the spec's scenario, with a ticket id, and the state
    before anything was saved. *)
Definition kumar : student_data :=
  {| sd_id := "0b1c";
     sd_name := "A Kumar";
     sd_roll_number := "R100";
     sd_program := "BBA";
     sd_semester := "1st";
     sd_exam_date := "01-05-2024";
     sd_seat_number := "S1";
     sd_hall_ticket_id := "1A2B3C4D";
     sd_subjects := [ {| subject_code := "C1"; subject_name := "Intro";
                         subject_date := "01-05-2024" |} ] |}.

Definition fresh : world := {| db := Missing; temp_dir := ∅; shown := [] |}.

(** The rows of the store, as [load_database] returns them. *)
Definition stored_rows (w : world) : list row := rows (fst (load_database w)).

End Store.

(** ** Literal syntax: the part of [ast.literal_eval] the store meets *)

Module Literal.
Import PyText PyValue.

(** The fragment read here: string literals in single or double quotes
    with the escapes [repr] writes ([\\], the quotes, [\n], [\r], [\t],
    [\xhh]) and [\a], [\b], [\f], [\v]; integers written in decimal digits
    with no leading zero, with an optional minus sign in front; [None],
    [True], [False]; lists, tuples (also without parentheses at top level)
    and dicts with string keys; spaces and tabs between tokens.  [None] as a
    result stands for the exception [literal_eval] raises, as it does on a
    name such as [abc]; text that is Python but outside the fragment
    (floats, bytes, sets, other escapes, prefixed, adjacent or triple-quoted
    strings, ...) is answered [None] as well. *)

Definition is_ws (c : ascii) : bool := Ascii.eqb c " " || Ascii.eqb c tab.

Fixpoint skip_ws (s : string) : string :=
  match s with
  | String c r => if is_ws c then skip_ws r else s
  | EmptyString => EmptyString
  end.

Definition is_digit (c : ascii) : bool :=
  ((48 <=? code c) && (code c <=? 57))%N.

Definition is_ident_start (c : ascii) : bool :=
  ((65 <=? code c) && (code c <=? 90) || (97 <=? code c) && (code c <=? 122)
   || (code c =? 95))%N.

Definition is_ident_char (c : ascii) : bool := is_ident_start c || is_digit c.

Definition hex_value (c : ascii) : option N :=
  let n := code c in
  if is_digit c then Some (n - 48)%N
  else if ((97 <=? n) && (n <=? 102))%N then Some (n - 87)%N
  else if ((65 <=? n) && (n <=? 70))%N then Some (n - 55)%N
  else None.

(** The character a one-letter escape stands for. *)
Definition unescape (c : ascii) : option ascii :=
  if Ascii.eqb c backslash then Some backslash
  else if Ascii.eqb c squote then Some squote
  else if Ascii.eqb c dquote then Some dquote
  else if Ascii.eqb c "n" then Some newline
  else if Ascii.eqb c "r" then Some creturn
  else if Ascii.eqb c "t" then Some tab
  else if Ascii.eqb c "a" then Some "007"%char
  else if Ascii.eqb c "b" then Some "008"%char
  else if Ascii.eqb c "f" then Some "012"%char
  else if Ascii.eqb c "v" then Some "011"%char
  else None.

Definition push (c : ascii) (r : option (string * string))
  : option (string * string) :=
  match r with
  | Some (s, rest) => Some (String c s, rest)
  | None => None
  end.

(** A string literal after its opening quote: the text up to the closing
    quote, and what follows it. *)
Fixpoint parse_str_body (quote : ascii) (s : string)
  : option (string * string) :=
  match s with
  | EmptyString => None
  | String c r =>
      if Ascii.eqb c quote then Some (EmptyString, r)
      else if Ascii.eqb c backslash then
        match r with
        | String e r1 =>
            match unescape e with
            | Some ch => push ch (parse_str_body quote r1)
            | None =>
                if Ascii.eqb e "x" then
                  match r1 with
                  | String h1 (String h2 r2) =>
                      match hex_value h1, hex_value h2 with
                      | Some a, Some b =>
                          push (ascii_of_N (16 * a + b))
                               (parse_str_body quote r2)
                      | _, _ => None
                      end
                  | _ => None
                  end
                else None
            end
        | EmptyString => None
        end
      else if Ascii.eqb c newline || Ascii.eqb c creturn
              || Ascii.eqb c "000" then None
      else push c (parse_str_body quote r)
  end.

Fixpoint take_digits (acc : Z) (s : string) : Z * string :=
  match s with
  | String c r =>
      if is_digit c then take_digits (10 * acc + Z.of_N (code c - 48)) r
      else (acc, s)
  | EmptyString => (acc, s)
  end.

(** A decimal integer: no leading zero before another digit, and nothing
    of a longer token right after it. *)
Definition parse_int (s : string) : option (Z * string) :=
  match s with
  | String c (String d _) =>
      if Ascii.eqb c "0" && is_digit d then None
      else
        let (n, rest) := take_digits 0 s in
        match rest with
        | String e _ =>
            if is_ident_char e || Ascii.eqb e "." then None
            else Some (n, rest)
        | EmptyString => Some (n, rest)
        end
  | _ => let (n, rest) := take_digits 0 s in Some (n, rest)
  end.

Fixpoint take_ident (s : string) : string * string :=
  match s with
  | String c r =>
      if is_ident_char c then
        let (w, rest) := take_ident r in (String c w, rest)
      else (EmptyString, s)
  | EmptyString => (EmptyString, s)
  end.

(** A name: only the three constants are literals. *)
Definition parse_name (s : string) : option (pyobj * string) :=
  let (w, rest) := take_ident s in
  if String.eqb w "None" then Some (PyNone, rest)
  else if String.eqb w "True" then Some (PyBool true, rest)
  else if String.eqb w "False" then Some (PyBool false, rest)
  else None.

Definition is_quote (c : ascii) : bool :=
  Ascii.eqb c squote || Ascii.eqb c dquote.

(** Whether the quote [q] just read opens a triple-quoted string: [r] goes
    on with two more of it. *)
Definition triple_quoted (q : ascii) (r : string) : bool :=
  match r with
  | String q1 (String q2 _) => Ascii.eqb q1 q && Ascii.eqb q2 q
  | _ => false
  end.

(** Whether [s] stands at the end of a sequence closed by [close] ([None]:
    by the end of the text), and what follows the closing character. *)
Definition at_close (close : option ascii) (s : string) : option string :=
  match close, s with
  | Some c, String d r => if Ascii.eqb c d then Some r else None
  | None, EmptyString => Some EmptyString
  | _, _ => None
  end.

(** [d[k] = x] on the items of a dict: a key already present keeps its
    place and takes the new value. *)
Fixpoint dict_set (items : list (pyobj * pyobj)) (k : string) (x : pyobj)
  : list (pyobj * pyobj) :=
  match items with
  | [] => [(PyStr k, x)]
  | (PyStr k', y) :: rest =>
      if String.eqb k' k then (PyStr k, x) :: rest
      else (PyStr k', y) :: dict_set rest k x
  | kv :: rest => kv :: dict_set rest k x
  end.

(** The dict of a display [{k1: x1, ...}], for string keys. *)
Fixpoint build_dict (acc : list (pyobj * pyobj))
  (pairs : list (pyobj * pyobj)) : option (list (pyobj * pyobj)) :=
  match pairs with
  | [] => Some acc
  | (PyStr k, x) :: rest => build_dict (dict_set acc k x) rest
  | _ => None
  end.

(** One value at the head of [s] (which starts with no blank), a
    sequence of values up to [close], and the pairs of a dict display up
    to its brace.  [fuel] bounds the nesting of calls. *)
Fixpoint parse_value (fuel : nat) (s : string) : option (pyobj * string) :=
  match fuel with
  | O => None
  | S fuel =>
      match s with
      | EmptyString => None
      | String c r =>
          if is_quote c then
            if triple_quoted c r then None
            else match parse_str_body c r with
                 | Some (t, rest) => Some (PyStr t, rest)
                 | None => None
                 end
          else if Ascii.eqb c "[" then
            match parse_seq fuel (Some "]"%char) (skip_ws r) with
            | Some (items, _, rest) => Some (PyList items, rest)
            | None => None
            end
          else if Ascii.eqb c "(" then
            match parse_seq fuel (Some ")"%char) (skip_ws r) with
            | Some ([x], false, rest) => Some (x, rest)
            | Some (items, _, rest) => Some (PyTuple items, rest)
            | None => None
            end
          else if Ascii.eqb c "{" then
            match parse_pairs fuel (skip_ws r) with
            | Some (pairs, rest) =>
                match build_dict [] pairs with
                | Some items => Some (PyDict items, rest)
                | None => None
                end
            | None => None
            end
          else if Ascii.eqb c "-" then
            match r with
            | String d _ =>
                if is_digit d then
                  match parse_int r with
                  | Some (n, rest) => Some (PyInt (- n), rest)
                  | None => None
                  end
                else None
            | EmptyString => None
            end
          else if is_digit c then
            match parse_int s with
            | Some (n, rest) => Some (PyInt n, rest)
            | None => None
            end
          else if is_ident_start c then parse_name s
          else None
      end
  end
with parse_seq (fuel : nat) (close : option ascii) (s : string)
  : option (list pyobj * bool * string) :=
  match fuel with
  | O => None
  | S fuel =>
      match at_close close s with
      | Some rest => Some ([], false, rest)
      | None =>
          match parse_value fuel s with
          | None => None
          | Some (x, r1) =>
              match skip_ws r1 with
              | String "," r2 =>
                  match parse_seq fuel close (skip_ws r2) with
                  | Some (xs, _, rest) => Some (x :: xs, true, rest)
                  | None => None
                  end
              | r1 =>
                  match at_close close r1 with
                  | Some rest => Some ([x], false, rest)
                  | None => None
                  end
              end
          end
      end
  end
with parse_pairs (fuel : nat) (s : string)
  : option (list (pyobj * pyobj) * string) :=
  match fuel with
  | O => None
  | S fuel =>
      match s with
      | String "}" rest => Some ([], rest)
      | _ =>
          match parse_value fuel s with
          | None => None
          | Some (k, r1) =>
              match skip_ws r1 with
              | String ":" r2 =>
                  match parse_value fuel (skip_ws r2) with
                  | None => None
                  | Some (x, r3) =>
                      match skip_ws r3 with
                      | String "," r4 =>
                          match parse_pairs fuel (skip_ws r4) with
                          | Some (kvs, rest) => Some ((k, x) :: kvs, rest)
                          | None => None
                          end
                      | String "}" rest => Some ([(k, x)], rest)
                      | _ => None
                      end
                  end
              | _ => None
              end
          end
      end
  end.

(** [ast.literal_eval(s)]: leading spaces and tabs are stripped, and the
    whole text must be one expression. *)
Definition literal_eval (s : string) : option pyobj :=
  let s := skip_ws s in
  match parse_seq (2 * String.length s + 4) None s with
  | Some ([x], false, _) => Some x
  | Some (x :: xs, true, _) => Some (PyTuple (x :: xs))
  | _ => None
  end.

End Literal.

(** ** Code encoder *)

Module Encoder.
Import PyText PyValue Store.

(** [f"{hall_ticket_id}:{student_roll_number}"] *)
Definition create_scannable_qr_data (hall_ticket_id student_roll_number : cell)
  : string :=
  cell_str hall_ticket_id ++ ":" ++ cell_str student_roll_number.

(** What a PIL image shows: the symbol [qrcode] drew for some data, a
    resampling of another picture, or one colour all over. *)
Inductive picture : Type :=
| Symbol (data : string)
| Resampled (from : picture)
| Plain (color : string).

Record image : Type := Image {
  width : Z;
  height : Z;
  shows : picture
}.

(** A call either returns a value or raises (with the exception's text). *)
Inductive outcome (A : Type) : Type :=
| Returns (a : A)
| Raises (why : string).
Arguments Returns {A} a.
Arguments Raises {A} why.

(** [img.resize((w, h))]: PIL refuses a side below one pixel. *)
Definition resize (w h : Z) (img : image) : outcome image :=
  if ((w <? 1) || (h <? 1))%Z then Raises "height and width must be > 0"
  else Returns {| width := w; height := h; shows := Resampled (shows img) |}.

(** [Image.new('RGB', (w, h), color=...)]: PIL refuses a negative side. *)
Definition Image_new (w h : Z) (color : string) : outcome image :=
  if ((w <? 0) || (h <? 0))%Z then Raises "Width and height must be >= 0"
  else Returns {| width := w; height := h; shows := Plain color |}.

Section Rasterizer.

(** The [qrcode] library, from [QRCode(...)] to [make_image]: the image of
    the symbol at the library's own size, or an exception (data too long
    for the largest symbol, for one). *)
Variable qr_make_image : string -> outcome image.

(** The image returned (or the exception that leaves the function), and
    whether [st.error] was called. *)
Definition generate_qr_code (data : string) (size : Z)
  : outcome image * list (level * string) :=
  let attempt :=
    match qr_make_image data with
    | Returns img => resize size size img
    | Raises why => Raises why
    end in
  match attempt with
  | Returns img => (Returns img, [])
  | Raises why =>
      (Image_new size size "white",
       [(Error, "Error generating QR code: " ++ why)])
  end.

End Rasterizer.

(** A stand-in for the library on short data: the symbol, 33 modules of
    10 pixels a side. *)
Definition symbol_330 (data : string) : outcome image :=
  Returns {| width := 330; height := 330; shows := Symbol data |}.

End Encoder.

(** ** Interactive shell: reading a scanned payload *)

Module Shell.
Import PyText PyValue Store.

(** The two messages of the step below. *)
Definition qr_processed (t r : string) : level * string :=
  (Success,
   "QR code data processed successfully. Hall Ticket ID: " ++ t
     ++ ", Roll Number: " ++ r).

Definition qr_invalid : level * string :=
  (Error,
   "Invalid QR code data. Please enter your Hall Ticket ID and Roll Number manually.").

(** Lines 347 to 353 of [create_qr_download_endpoint], on the three text
    inputs of the form: the ticket id and roll number the lookup goes on
    with, and the message shown, if any. *)
Definition read_qr_data (hall_ticket_id roll_number qr_data : string)
  : string * string * list (level * string) :=
  if nonempty qr_data then
    match split ":" qr_data with
    | [t; r] => (t, r, [qr_processed t r])
    | _ => (hall_ticket_id, roll_number, [qr_invalid])
    end
  else (hall_ticket_id, roll_number, []).

(** What the spec calls decoding: cut at the first colon only. *)
Fixpoint split_first_colon (s : string) : option (string * string) :=
  match s with
  | EmptyString => None
  | String c r =>
      if Ascii.eqb c ":" then Some (EmptyString, r)
      else match split_first_colon r with
           | Some (a, b) => Some (String c a, b)
           | None => None
           end
  end.

End Shell.

(** ** Credential renderer: the subjects section *)

Module Renderer.
Import PyText PyValue Store Literal.

(** Lines 227 to 234: [subjects] as the loop will walk it. *)
Definition normalize_subjects (subjects : pyobj) : pyobj :=
  match subjects with
  | PyStr text =>
      match literal_eval text with
      | Some v => v
      | None =>
          PyList (map PyStr
                    (List.filter nonempty (map strip (split "," text))))
      end
  | _ => subjects
  end.

(** The canvas calls of the section.  Lengths are in millimetres, exact:
    every length of the section is a multiple of [0.1*cm]. *)
Inductive draw_op : Type :=
| SetFont (font : string) (size : Z)
| SetFillColor (color : string)
| DrawString (x y : Z) (text : string)
| DrawRect (x y w h : Z)
| DrawLine (x1 y1 x2 y2 : Z).

(** A4, in millimetres. *)
Definition page_width : Z := 210.

(** [d.get(key, '')] *)
Fixpoint dict_get (items : list (pyobj * pyobj)) (key : string) : pyobj :=
  match items with
  | [] => PyStr EmptyString
  | (PyStr k, x) :: rest => if String.eqb k key then x else dict_get rest key
  | _ :: rest => dict_get rest key
  end.

(** A text argument of [drawString] or [len]: anything but a string
    raises. *)
Definition as_text (v : pyobj) : option string :=
  match v with
  | PyStr s => Some s
  | _ => None
  end.

(** Lines 266 to 268. *)
Definition limit_name (subject_name : string) : string :=
  if (40 <? String.length subject_name)%nat
  then substring 0 37 subject_name ++ "..."
  else subject_name.

(** The body of the loop for one subject, before [y_position] moves:
    [None] when a call raises. *)
Definition draw_subject (subject : pyobj) (y : Z) : option (list draw_op) :=
  match subject with
  | PyDict items =>
      match as_text (dict_get items "code"),
            as_text (dict_get items "name"),
            as_text (dict_get items "date") with
      | Some code, Some subject_name, Some date =>
          Some [ SetFillColor "lightgrey";
                 DrawRect 20 (y - 3) (page_width - 40) 6;
                 SetFillColor "black";
                 DrawString 20 y code;
                 DrawString 60 y (limit_name subject_name);
                 DrawString 130 y date ]
      | _, _, _ => None
      end
  | _ => Some [ DrawString 60 y (py_str subject) ]
  end.

(** The loop of lines 254 to 280: it stops after the row that takes
    [y_position] below 6 cm. *)
Fixpoint draw_subjects (subjects : list pyobj) (y : Z)
  : option (list draw_op * Z) :=
  match subjects with
  | [] => Some ([], y)
  | subject :: rest =>
      match draw_subject subject y with
      | None => None
      | Some ops =>
          let y := (y - 7)%Z in
          if (y <? 60)%Z then Some (ops, y)
          else match draw_subjects rest y with
               | Some (more, y') => Some ((ops ++ more)%list, y')
               | None => None
               end
      end
  end.

(** [for subject in subjects]: what the loop walks, or [None] for a value
    that cannot be iterated. *)
Definition py_iter (v : pyobj) : option (list pyobj) :=
  match v with
  | PyList items | PyTuple items => Some items
  | PyDict items => Some (map fst items)
  | PyStr s => Some (map (fun c => PyStr (String c EmptyString))
                         (list_ascii_of_string s))
  | _ => None
  end.

(** Lines 227 to 280: the calls made and the new [y_position], or [None]
    when the section raises (the render is then given up). *)
Definition subjects_section (subjects : pyobj) (y : Z)
  : option (list draw_op * Z) :=
  let subjects := normalize_subjects subjects in
  if negb (py_truthy subjects) then
    Some ([ SetFont "Helvetica" 10;
            DrawString 20 y "No examination subjects specified." ],
          (y - 7)%Z)
  else
    let head :=
      [ SetFont "Helvetica-Bold" 10;
        DrawString 20 y "Subject Code";
        DrawString 60 y "Subject Name";
        DrawString 130 y "Date";
        DrawLine 20 (y - 5 - 1) (page_width - 20) (y - 5 - 1);
        SetFont "Helvetica" 10 ] in
    match py_iter subjects with
    | None => None
    | Some items =>
        match draw_subjects items (y - 5 - 4)%Z with
        | Some (ops, y') => Some ((head ++ ops)%list, y')
        | None => None
        end
    end.




End Renderer.

(** ** The whole ticket: its page, its files, and the pages of the shell *)

Module Ticket.
Import PyText PyValue Store Literal Encoder Shell Renderer.

(** [generate_hall_ticket_url]; [unique_id] stands for
    [str(uuid.uuid4())[:8].upper()]. *)
Definition generate_hall_ticket_url (unique_id : string)
  (hall_ticket_id : cell) : string :=
  "HALL_TICKET_ID:" ++ cell_str hall_ticket_id ++ ":" ++ unique_id.

(** The canvas calls of the page outside the subjects section, and those
    of the section ([Draw]).  Lengths are millimetres as before; a line
    width and a font size are points. *)
Inductive canvas_op : Type :=
| SetStrokeColor (color : string)
| SetLineWidth (points : Z)
| StrokeRect (x y w h : Z)
| DrawCentredString (x y : Z) (text : string)
| DrawImage (path : string) (x y w h : Z)
| Draw (op : draw_op).

(** A4, in millimetres. *)
Definition page_height : Z := 297.

(** Lines 203 to 211. *)
Definition details (student_data : row) : list (string * string) :=
  [ ("Name:", cell_str (name student_data));
    ("Roll Number:", cell_str (roll_number student_data));
    ("Program:", cell_str (program student_data));
    ("Semester:", cell_str (semester student_data));
    ("Exam Date:", cell_str (exam_date student_data));
    ("Seat Number:", cell_str (seat_number student_data));
    ("Hall Ticket ID:", cell_str (hall_ticket_id student_data)) ].

(** Lines 213 to 218: the calls and the [y_position] left. *)
Fixpoint draw_details (items : list (string * string)) (y : Z)
  : list canvas_op * Z :=
  match items with
  | [] => ([], y)
  | (label, value) :: rest =>
      let (more, y') := draw_details rest (y - 7) in
      (([ Draw (SetFont "Helvetica-Bold" 10);
          Draw (DrawString 20 y label);
          Draw (SetFont "Helvetica" 10);
          Draw (DrawString 50 y value) ] ++ more)%list, y')
  end.

(** Lines 286 to 292. *)
Definition instructions : list string :=
  [ "1. This hall ticket must be presented at the examination center.";
    "2. Candidates should be seated in the examination hall 15 minutes before the start of the examination.";
    "3. Mobile phones and electronic devices are strictly prohibited in the examination hall.";
    "4. Candidates are not allowed to leave the examination hall before the end of the examination.";
    "5. Unfair means during the examination will lead to disqualification." ].

(** Lines 295 to 298. *)
Fixpoint draw_instructions (lines : list string) (y : Z) : list canvas_op :=
  match lines with
  | [] => []
  | instruction :: rest =>
      Draw (SetFont "Helvetica" 9) :: Draw (DrawString 20 y instruction)
      :: draw_instructions rest (y - 5)
  end.

(** Lines 300 to 312: signatures and footer, at fixed heights. *)
Definition page_foot : list canvas_op :=
  [ Draw (SetFont "Helvetica" 10);
    Draw (DrawString 20 40 "Student's Signature");
    Draw (DrawString (page_width - 60) 40 "Examiner's Signature");
    Draw (DrawLine 20 35 60 35);
    Draw (DrawLine (page_width - 60) 35 (page_width - 20) 35);
    Draw (SetFont "Helvetica" 8);
    DrawCentredString 105 20
      "This hall ticket is electronically generated and does not require a stamp.";
    DrawCentredString 105 17
      "Scan QR code to download this hall ticket directly" ].

(** [TEMP_DIR / f"qr_{student_data['roll_number']}.png"], as the file's
    name inside [TEMP_DIR]. *)
Definition qr_name (roll : cell) : string := "qr_" ++ cell_str roll ++ ".png".

(** Lines 156 to 224: the calls before the subjects section, and the
    [y_position] it starts at.  The image of the code is taken to be drawn
    (the [st.warning] of lines 192 and 193 is for a file that cannot be read
    back). *)
Definition page_top (current_year : Z) (student_data : row)
  : list canvas_op * Z :=
  let head :=
    [ SetStrokeColor "black";
      SetLineWidth 2;
      StrokeRect 10 10 (page_width - 20) (page_height - 20);
      Draw (SetFont "Helvetica-Bold" 16);
      DrawCentredString 105 (page_height - 20)
        "GODAVARI INSTITUTE OF MANAGEMENT AND RESEARCH";
      Draw (SetFont "Helvetica" 14);
      DrawCentredString 105 (page_height - 27) "EXAMINATION HALL TICKET";
      Draw (SetFont "Helvetica" 10);
      DrawCentredString 105 (page_height - 33)
        ("Academic Session: " ++ pretty current_year ++ "-"
           ++ pretty (current_year + 1)%Z);
      DrawImage (qr_name (roll_number student_data))
        (page_width - 45) (page_height - 80) 30 30;
      Draw (SetFont "Helvetica" 8);
      DrawCentredString (page_width - 30) (page_height - 85) "Scan to download";
      DrawCentredString (page_width - 30) (page_height - 88) "hall ticket";
      Draw (SetFont "Helvetica-Bold" 12);
      Draw (DrawString 20 (page_height - 50) "STUDENT INFORMATION");
      Draw (SetFont "Helvetica" 10) ] in
  let (rows_of_details, y) :=
    draw_details (details student_data) (page_height - 55) in
  ((head ++ rows_of_details
    ++ [ Draw (SetFont "Helvetica-Bold" 12);
         Draw (DrawString 20 (y - 5) "EXAMINATION DETAILS") ])%list,
   (y - 12)%Z).

(** Lines 282 to 312: the calls after the subjects section, which left
    [y_position] at [y]. *)
Definition page_bottom (y : Z) : list canvas_op :=
  ([ Draw (SetFont "Helvetica-Bold" 12);
     Draw (DrawString 20 (y - 5) "IMPORTANT INSTRUCTIONS") ]
   ++ draw_instructions instructions (y - 15)
   ++ page_foot)%list.

(** The calls of [generate_hall_ticket_pdf] on its canvas, in order;
    [None] when the subjects section raises. *)
Definition page (current_year : Z) (student_data : row)
  : option (list canvas_op) :=
  let (top, y) := page_top current_year student_data in
  match subjects_section (subjects student_data) y with
  | None => None
  | Some (section, y) =>
      Some (top ++ map Draw section ++ page_bottom y)%list
  end.


(** The heights at which the page writes a given text with [drawString]. *)
Definition heights_of (text : string) (ops : list canvas_op) : list Z :=
  flat_map (fun op => match op with
                      | Draw (DrawString _ y t) =>
                          if String.eqb t text then [y] else []
                      | _ => []
                      end) ops.

Definition show (msgs : list (level * string)) (w : world) : world :=
  {| db := db w; temp_dir := temp_dir w; shown := shown w ++ msgs |}.

Definition st_success (msg : string) (w : world) : world :=
  show [(Success, msg)] w.


(** Writing and removing a file of [TEMP_DIR]. *)
Definition write_file (name : string) (w : world) : world :=
  {| db := db w; temp_dir := temp_dir w ∪ {[ name ]}; shown := shown w |}.

Definition remove_file (name : string) (w : world) : world :=
  {| db := db w; temp_dir := temp_dir w ∖ {[ name ]}; shown := shown w |}.

(** [os.path.basename]: what follows the last slash. *)
Fixpoint basename (path : string) : string :=
  match path with
  | EmptyString => EmptyString
  | String c r =>
      if Ascii.eqb c "/" || contains "/" r then basename r else path
  end.

Definition quoted (s : string) : string :=
  String dquote (s ++ String dquote EmptyString).

Section Pages.

(** The [qrcode] library, as for [generate_qr_code]; the year of
    [datetime.now()]; the base64 text of the bytes of a file of [TEMP_DIR];
    and the label of the download link of the generation page, which
    starts with an icon. *)
Variable qr_make_image : string -> outcome image.
Variable current_year : Z.
Variable b64_of_file : string -> string.
Variable download_label : string.

(** The path returned ([None] for Python's [None]) and the state left.
    The PDF is written by [c.save()], so only when every call before it went
    through; the image of the code is saved at line 182 and removed at line
    319, after [c.save()].  Writing is taken to succeed, as in the store.  The
    message of the [except] branch ends with the exception's text, which the
    subjects section does not give here. *)
Definition generate_hall_ticket_pdf (student_data : row) (w : world)
  : option string * world :=
  let filename :=
    pdf_name (roll_number student_data) (hall_ticket_id student_data) in
  let qr_data :=
    create_scannable_qr_data (hall_ticket_id student_data)
      (roll_number student_data) in
  let (qr_img, msgs) := generate_qr_code qr_make_image qr_data 200 in
  let w := show msgs w in
  match qr_img with
  | Raises why => (None, st_error ("Error generating PDF: " ++ why) w)
  | Returns _ =>
      let qr_path := qr_name (roll_number student_data) in
      let w := write_file qr_path w in
      match page current_year student_data with
      | None => (None, st_error "Error generating PDF: " w)
      | Some _ =>
          let w := write_file filename w in
          let w := remove_file qr_path w in
          (Some filename, w)
      end
  end.

(** [open] fails on a file that is not there (the text of that exception
    names the file). *)
Definition get_binary_file_downloader_html (bin_file file_label : string)
  (w : world) : outcome string :=
  if bool_decide (bin_file ∈ temp_dir w) then
    Returns ("<a href="
               ++ quoted ("data:application/octet-stream;base64,"
                            ++ b64_of_file bin_file)
               ++ " download=" ++ quoted (basename bin_file)
               ++ " class=" ++ quoted "download-button"
               ++ ">" ++ file_label ++ "</a>")
  else Raises ("[Errno 2] No such file or directory: " ++ bin_file).

Definition get_download_link (file_path link_text : string) (w : world)
  : string * world :=
  match get_binary_file_downloader_html file_path link_text w with
  | Returns href => (href, w)
  | Raises why =>
      ("Download link could not be created.",
       st_error ("Error creating download link: " ++ why) w)
  end.

(** [create_qr_download_endpoint] from the submitted form on: the markup
    of the link given by [st.markdown], if any, and the state left.  The
    frame read by [load_database] has the store's columns and the render
    catches its own exceptions, so the last [except] is not entered. *)
Definition create_qr_download_endpoint
  (hall_ticket_id roll_number qr_data : string) (submit_button : bool)
  (w : world) : option string * world :=
  if submit_button then
    let '(hall_ticket_id, roll_number, msgs) :=
      read_qr_data hall_ticket_id roll_number qr_data in
    let w := show msgs w in
    if negb (nonempty hall_ticket_id) || negb (nonempty roll_number) then
      (None, st_error "Please enter both Hall Ticket ID and Roll Number." w)
    else
      let (df, w) := load_database w in
      let student :=
        df_select
          (fun r => cell_eq (Store.hall_ticket_id r) (CStr hall_ticket_id)
                    && cell_eq (Store.roll_number r) (CStr roll_number))
          df in
      match rows student with
      | [] =>
          (None, st_error "No hall ticket found with the provided details." w)
      | student_data :: _ =>
          match generate_hall_ticket_pdf student_data w with
          | (Some pdf_path, w) =>
              let w := st_success "Hall Ticket found!" w in
              let (link, w) :=
                get_download_link pdf_path "Download Hall Ticket" w in
              (Some link, w)
          | (None, w) =>
              (None,
               st_error "Could not generate the hall ticket. Please try again."
                 w)
          end
      end
  else (None, w).


End Pages.

(** What the browse page shows under a record for its subjects, lines 675
    to 706: nothing, the heading alone, the heading and a table of (code,
    name, date), or the heading, a warning and the cell as it is. *)
Inductive subjects_view : Type :=
| NotShown
| HeadingOnly
| SubjectsTable (table : list (pyobj * pyobj * pyobj))
| Unparsed (raw : pyobj).

(** Lines 689 to 696. *)
Definition table_row (subject : pyobj) : pyobj * pyobj * pyobj :=
  match subject with
  | PyDict items =>
      (dict_get items "code", dict_get items "name", dict_get items "date")
  | _ => (PyStr EmptyString, PyStr (py_str subject), PyStr EmptyString)
  end.

Definition view_subjects (cell_value : pyobj) : subjects_view :=
  if py_truthy cell_value then
    let parsed :=
      match cell_value with
      | PyStr text => literal_eval text
      | _ => Some cell_value
      end in
    match parsed with
    | None => Unparsed cell_value
    | Some (PyList items) =>
        if py_truthy (PyList items)
        then SubjectsTable (map table_row items)
        else HeadingOnly
    | Some _ => HeadingOnly
    end
  else NotShown.

(** States and a record to try the pages on: the store after the first
    submission, a store whose file cannot be read, and a row whose subjects
    cell holds a number. *)
Definition saved : world := snd (save_to_database kumar fresh).

Definition corrupt : world :=
  {| db := Unreadable "No columns to parse from file";
     temp_dir := ∅;
     shown := [] |}.



(** A call of the subjects section that writes no text at [y] or below. *)
Definition above (y : Z) (op : draw_op) : Prop :=
  match op with
  | DrawString _ h _ => (y < h)%Z
  | _ => True
  end.

(** No text but the two captions at the signature lines, 4 cm up, is
    written below 6 cm. *)
Definition clear_of_signatures (op : canvas_op) : Prop :=
  match op with
  | Draw (DrawString _ y text) =>
      (60 <= y)%Z
      \/ (y = 40%Z
          /\ (text = "Student's Signature" \/ text = "Examiner's Signature"))
  | _ => True
  end.

End Ticket.

(** * Properties *)

(** ** Record store *)

Module StoreFacts.
Import PyText PyValue Store.










(** The scenario of the spec: one row after the first submission, still
    one after a second with another name, none after the delete. *)
Example scenario_submit :
  stored_rows (snd (save_to_database kumar fresh))
  = [ {| id := CStr "0b1c"; name := CStr "A Kumar";
         roll_number := CStr "R100"; program := CStr "BBA";
         semester := CStr "1st"; exam_date := CStr "01-05-2024";
         seat_number := CStr "S1"; hall_ticket_id := CStr "1A2B3C4D";
         subjects :=
           PyStr "[{'code': 'C1', 'name': 'Intro', 'date': '01-05-2024'}]" |} ].
Proof. reflexivity. Qed.

Example scenario_resubmit :
  map name
    (stored_rows
       (snd (save_to_database
               {| sd_id := "7e2f"; sd_name := "A K Kumar";
                  sd_roll_number := "R100"; sd_program := "BBA";
                  sd_semester := "1st"; sd_exam_date := "01-05-2024";
                  sd_seat_number := "S1"; sd_hall_ticket_id := "9F8E7D6C";
                  sd_subjects := [] |}
               (snd (save_to_database kumar fresh)))))
  = [ CStr "A K Kumar" ].
Proof. reflexivity. Qed.

Example scenario_delete :
  stored_rows
    (snd (delete_from_database (CStr "R100") (CStr "1A2B3C4D")
            (snd (save_to_database kumar fresh))))
  = [].
Proof. reflexivity. Qed.

(** [==] is between values as the frame holds them: a roll number held as
    the number 100 is not the text ["100"]. *)
Example number_is_not_text :
  cell_eq (CInt 100) (CStr "100") = false
  /\ cell_eq (CStr "100") (CStr "100") = true
  /\ cell_eq CNaN CNaN = false.
Proof. repeat split. Qed.






End StoreFacts.

(** ** Code payload and its decoding *)

Module ShellFacts.
Import PyText PyValue Store Encoder Shell.

Lemma split_no_sep (c : ascii) (s : string) :
  contains c s = false -> split c s = [s].
Proof.
  induction s as [|d s IH]; simpl; [reflexivity|].
  intros H. apply orb_false_iff in H as [Hd Hs].
  rewrite Hd, (IH Hs). reflexivity.
Qed.

Lemma split_at_sep (c : ascii) (a b : string) :
  contains c a = false ->
  split c (a ++ String c b) = a :: split c b.
Proof.
  induction a as [|d a IH]; simpl.
  - now rewrite Ascii.eqb_refl.
  - intros H. apply orb_false_iff in H as [Hd Ha].
    rewrite Hd, (IH Ha). reflexivity.
Qed.

(** A text with the separator in it splits into two items at least. *)
Lemma split_with_sep (c : ascii) (s : string) :
  contains c s = true -> exists x y l, split c s = x :: y :: l.
Proof.
  induction s as [|d s IH]; simpl; [discriminate|].
  destruct (Ascii.eqb d c) eqn:E; simpl.
  - intros _. destruct s as [|e s]; simpl; [now eauto|].
    destruct (Ascii.eqb e c); [now eauto|].
    destruct (split c s); eauto.
  - intros H. destruct (IH H) as (x & y & l & ->). eauto.
Qed.

Lemma split_first_colon_none (s : string) :
  split_first_colon s = None -> contains ":" s = false.
Proof.
  induction s as [|d s IH]; simpl; [reflexivity|].
  destruct (Ascii.eqb d ":"); [discriminate|].
  destruct (split_first_colon s) as [[a b]|]; [discriminate|].
  intros _. now apply IH.
Qed.

Lemma split_first_colon_some (s a b : string) :
  split_first_colon s = Some (a, b) ->
  s = a ++ String ":" b /\ contains ":" a = false.
Proof.
  revert a b. induction s as [|d s IH]; simpl; [discriminate|].
  intros a b. destruct (Ascii.eqb_spec d ":") as [->|Hne].
  - intros [= <- <-]. split; reflexivity.
  - destruct (split_first_colon s) as [[a' b']|]; [|discriminate].
    intros [= <- <-]. destruct (IH _ _ eq_refl) as [-> Ha].
    split; [reflexivity|]. simpl. rewrite Ha.
    destruct (Ascii.eqb_spec d ":"); [contradiction|reflexivity].
Qed.

Lemma nonempty_append (a b : string) :
  nonempty (a ++ String ":" b) = true.
Proof. destruct a; reflexivity. Qed.

Example read_qr_data_examples :
  read_qr_data "" "" "1A2B3C4D:R100"
  = ("1A2B3C4D", "R100", [qr_processed "1A2B3C4D" "R100"])
  /\ read_qr_data "T" "R" "no colon here" = ("T", "R", [qr_invalid])
  /\ read_qr_data "T" "R" "" = ("T", "R", []).
Proof. repeat split. Qed.

(** C3: the payload written for a ticket id and a roll number with no
    colon in them is read back as that pair. *)
Theorem qr_data_round_trip (T R hall_ticket_id roll_number : string) :
  contains ":" T = false ->
  contains ":" R = false ->
  create_scannable_qr_data (CStr T) (CStr R) = T ++ ":" ++ R
  /\ read_qr_data hall_ticket_id roll_number
       (create_scannable_qr_data (CStr T) (CStr R))
     = (T, R, [qr_processed T R]).
Proof.
  intros HT HR. split; [reflexivity|].
  unfold read_qr_data, create_scannable_qr_data. simpl cell_str.
  change (T ++ ":" ++ R) with (T ++ String ":" R).
  rewrite nonempty_append, (split_at_sep _ _ _ HT), (split_no_sep _ _ HR).
  reflexivity.
Qed.

Lemma qr_data_round_trip_witness :
  read_qr_data "" "" (create_scannable_qr_data (CStr "1A2B3C4D") (CStr "R100"))
  = ("1A2B3C4D", "R100", [qr_processed "1A2B3C4D" "R100"]).
Proof.
  exact (proj2 (qr_data_round_trip "1A2B3C4D" "R100" "" "" eq_refl eq_refl)).
Defined.

(** C4 as stated fails: a payload with two colons is not cut at the
    first one, it is refused, and the inputs of the form stay. *)
Lemma read_qr_data_two_colons :
  split_first_colon "A:B:C" = Some ("A", "B:C")
  /\ read_qr_data "" "" "A:B:C" = ("", "", [qr_invalid])
  /\ fst (read_qr_data "" "" "A:B:C") <> ("A", "B:C").
Proof. repeat split. simpl. discriminate. Qed.

(** C4, amended: an empty payload is not read at all; a payload with
    exactly one colon gives the text before it and the text after it; any
    other payload (no colon, or more than one) is reported as invalid and the
    inputs of the form are kept.  Every payload has an answer: nothing is
    raised. *)
Theorem read_qr_data_cases (hall_ticket_id roll_number qr_data : string) :
  read_qr_data hall_ticket_id roll_number qr_data
  = if nonempty qr_data then
      match split_first_colon qr_data with
      | Some (t, r) =>
          if contains ":" r
          then (hall_ticket_id, roll_number, [qr_invalid])
          else (t, r, [qr_processed t r])
      | None => (hall_ticket_id, roll_number, [qr_invalid])
      end
    else (hall_ticket_id, roll_number, []).
Proof.
  unfold read_qr_data. destruct (nonempty qr_data); [|reflexivity].
  destruct (split_first_colon qr_data) as [[t r]|] eqn:E.
  - apply split_first_colon_some in E as [-> Ht].
    rewrite (split_at_sep _ _ _ Ht).
    destruct (contains ":" r) eqn:Hr.
    + destruct (split_with_sep _ _ Hr) as (x & y & l & ->). reflexivity.
    + rewrite (split_no_sep _ _ Hr). reflexivity.
  - apply split_first_colon_none in E. rewrite (split_no_sep _ _ E).
    reflexivity.
Qed.

End ShellFacts.

(** ** QR rasterizer *)

Module EncoderFacts.
Import PyText PyValue Store Encoder.

(** C8: for a size that is a number of pixels, [generate_qr_code] returns
    an image of that width and height whatever the [qrcode] library does:
    the resized symbol when the library and the resize succeed, and a plain
    white image, with the error shown, when either raises. *)
Theorem generate_qr_code_square
  (qr_make_image : string -> outcome image) (data : string) (size : Z) :
  (0 <= size)%Z ->
  exists img shown,
    generate_qr_code qr_make_image data size = (Returns img, shown)
    /\ width img = size /\ height img = size
    /\ match qr_make_image data with
       | Returns symbol =>
           if (1 <=? size)%Z
           then shows img = Resampled (shows symbol) /\ shown = []
           else shows img = Plain "white"
       | Raises why =>
           shows img = Plain "white"
           /\ shown = [(Error, "Error generating QR code: " ++ why)]
       end.
Proof.
  intros Hsize. unfold generate_qr_code, resize, Image_new.
  assert (Hneg : (size <? 0)%Z = false) by lia.
  destruct (qr_make_image data) as [symbol|why].
  - destruct (Z.leb_spec 1 size) as [H1|H1].
    + assert (E : (size <? 1)%Z = false) by lia. rewrite E. simpl.
      eexists _, _. repeat split.
    + assert (E : (size <? 1)%Z = true) by lia. rewrite E, Hneg. simpl.
      eexists _, _. repeat split.
  - rewrite Hneg. simpl. eexists _, _. repeat split.
Qed.

(** Why the size is taken to be a number of pixels: below zero PIL
    refuses the fallback image too, and that exception leaves the
    function. *)
Lemma generate_qr_code_negative_size
  (qr_make_image : string -> outcome image) (data : string) (size : Z) :
  (size < 0)%Z ->
  fst (generate_qr_code qr_make_image data size)
  = Raises "Width and height must be >= 0".
Proof.
  intros Hsize. unfold generate_qr_code, resize, Image_new.
  assert (E1 : (size <? 1)%Z = true) by lia.
  assert (E0 : (size <? 0)%Z = true) by lia.
  destruct (qr_make_image data); rewrite ?E1, E0; reflexivity.
Qed.

Lemma generate_qr_code_square_witness :
  exists img shown,
    generate_qr_code symbol_330 "1A2B3C4D:R100" 200 = (Returns img, shown)
    /\ width img = 200%Z /\ height img = 200%Z
    /\ shows img = Resampled (Symbol "1A2B3C4D:R100") /\ shown = [].
Proof.
  exact (generate_qr_code_square symbol_330 "1A2B3C4D:R100" 200 ltac:(lia)).
Defined.

End EncoderFacts.

(** ** Literal syntax: what [str] writes for the subjects is read back *)

Module LiteralFacts.
Import PyText PyValue Store Literal.
#[local] Arguments String.append !_ _ / : simpl nomatch.

Example repr_examples :
  py_repr (PyList [PyStr "it's"; PyInt (-3); PyNone; PyTuple [PyBool true]])
  = String "[" (String dquote ("it's" ++ String dquote ", -3, None, (True,)]"))
  /\ str_repr (String tab "a\b") = "'\ta\\b'".
Proof. split; reflexivity. Qed.

Example literal_eval_examples :
  literal_eval "[{'code': 'C1', 'name': 'Intro', 'date': '01-05-2024'}]"
  = Some (PyList [subject_dict (Subject "C1" "Intro" "01-05-2024")])
  /\ literal_eval " ('a', [1, -2], {'k': None}, )"
     = Some (PyTuple [ PyStr "a"; PyList [PyInt 1; PyInt (-2)];
                       PyDict [(PyStr "k", PyNone)] ])
  /\ literal_eval "'\x41\n'" = Some (PyStr (String "A" (String newline "")))
  /\ literal_eval "[]" = Some (PyList [])
  /\ literal_eval "Intro, Algebra" = None
  /\ literal_eval "[1, 2" = None
  /\ literal_eval "" = None.
Proof. repeat split. Qed.

Lemma string_app_assoc (a b c : string) : (a ++ b) ++ c = a ++ (b ++ c).
Proof. induction a as [|x a IH]; simpl; [reflexivity|now rewrite IH]. Qed.

Lemma string_length_app (a b : string) :
  String.length (a ++ b) = (String.length a + String.length b)%nat.
Proof. induction a as [|x a IH]; simpl; [reflexivity|now rewrite IH]. Qed.

Lemma parse_escaped_char (q c : ascii) (tail : string) :
  q = squote \/ q = dquote ->
  parse_str_body q (escape_char q c ++ tail) = push c (parse_str_body q tail).
Proof.
  intros [-> | ->];
    destruct c as [[] [] [] [] [] [] [] []]; reflexivity.
Qed.

Lemma escaped_char_head (q c : ascii) :
  q = squote \/ q = dquote ->
  exists d t, escape_char q c = String d t /\ Ascii.eqb d q = false.
Proof.
  intros [-> | ->];
    destruct c as [[] [] [] [] [] [] [] []]; eexists _, _; split; reflexivity.
Qed.

Lemma repr_quote_cases (s : string) :
  repr_quote s = squote \/ repr_quote s = dquote.
Proof. unfold repr_quote. destruct (_ && _); auto. Qed.

(** The text between the quotes is read back, up to the closing quote. *)
Lemma parse_escaped_body (q : ascii) (s rest : string) :
  q = squote \/ q = dquote ->
  parse_str_body q (escape_body q s ++ String q rest) = Some (s, rest).
Proof.
  intros Hq. induction s as [|c s IH]; simpl.
  - now rewrite Ascii.eqb_refl.
  - rewrite string_app_assoc, parse_escaped_char, IH by exact Hq.
    reflexivity.
Qed.

Lemma parse_value_quote (f : nat) (q : ascii) (r : string) :
  q = squote \/ q = dquote -> triple_quoted q r = false ->
  parse_value (S f) (String q r)
  = match parse_str_body q r with
    | Some (t, rest) => Some (PyStr t, rest)
    | None => None
    end.
Proof.
  intros [-> | ->] H; destruct r as [|q1 [|q2 r2]]; try reflexivity;
    simpl in H; simpl; rewrite H; reflexivity.
Qed.

Lemma triple_quoted_escape_body (q : ascii) (s : string) (x : ascii)
  (rest : string) :
  q = squote \/ q = dquote -> Ascii.eqb x q = false ->
  triple_quoted q (escape_body q s ++ String q (String x rest)) = false.
Proof.
  intros Hq Hx. destruct s as [|c s]; simpl.
  - now rewrite Hx, andb_false_r.
  - destruct (escaped_char_head q c Hq) as (d & t & -> & Hd). simpl.
    rewrite Hd. now destruct (_ ++ _).
Qed.

Lemma str_repr_app (s rest : string) :
  str_repr s ++ rest
  = String (repr_quote s)
      (escape_body (repr_quote s) s ++ String (repr_quote s) rest).
Proof. unfold str_repr. simpl. now rewrite string_app_assoc. Qed.

(** [repr] of a string, followed by anything but a quote, is read back as
    the string. *)
Lemma parse_value_str_repr (f : nat) (s : string) (x : ascii)
  (rest : string) :
  (1 <= f)%nat -> is_quote x = false ->
  parse_value f (str_repr s ++ String x rest) = Some (PyStr s, String x rest).
Proof.
  intros Hf Hx. destruct f as [|f]; [lia|].
  apply orb_false_iff in Hx as [Hx1 Hx2].
  assert (Hxq : Ascii.eqb x (repr_quote s) = false).
  { destruct (repr_quote_cases s) as [-> | ->]; assumption. }
  rewrite str_repr_app.
  rewrite parse_value_quote, parse_escaped_body;
    auto using repr_quote_cases, triple_quoted_escape_body.
Qed.

Lemma skip_ws_str_repr (s rest : string) :
  skip_ws (str_repr s ++ rest) = str_repr s ++ rest.
Proof.
  rewrite str_repr_app.
  destruct (repr_quote_cases s) as [-> | ->]; reflexivity.
Qed.

(** One more pair of a dict display, and its last pair. *)
Lemma parse_pairs_more (f : nat) (s k r2 : string) (x : pyobj)
  (r4 : string) :
  parse_value f s = Some (PyStr k, String ":" r2) ->
  parse_value f (skip_ws r2) = Some (x, String "," r4) ->
  parse_pairs (S f) s
  = match parse_pairs f (skip_ws r4) with
    | Some (kvs, rest) => Some ((PyStr k, x) :: kvs, rest)
    | None => None
    end.
Proof.
  intros Hk Hx. simpl. rewrite Hk. simpl. rewrite Hx. simpl.
  destruct s as [|c s]; [reflexivity|].
  destruct (Ascii.eqb_spec c "}") as [->|Hc].
  - destruct f; discriminate.
  - destruct c as [[] [] [] [] [] [] [] []]; try reflexivity.
    contradiction.
Qed.

Lemma parse_pairs_last (f : nat) (s k r2 : string) (x : pyobj)
  (rest : string) :
  parse_value f s = Some (PyStr k, String ":" r2) ->
  parse_value f (skip_ws r2) = Some (x, String "}" rest) ->
  parse_pairs (S f) s = Some ([(PyStr k, x)], rest).
Proof.
  intros Hk Hx. simpl. rewrite Hk. simpl. rewrite Hx. simpl.
  destruct s as [|c s]; [reflexivity|].
  destruct (Ascii.eqb_spec c "}") as [->|Hc].
  - destruct f; discriminate.
  - destruct c as [[] [] [] [] [] [] [] []]; try reflexivity.
    contradiction.
Qed.

Lemma subject_text_repr (e : subject) (rest : string) :
  py_repr (subject_dict e) ++ rest = subject_text e rest.
Proof.
  unfold subject_text, subject_dict. simpl.
  repeat (rewrite !string_app_assoc; simpl). reflexivity.
Qed.

Lemma parse_value_brace (f : nat) (body : string) :
  parse_value (S f) (String "{" body)
  = match parse_pairs f (skip_ws body) with
    | Some (pairs, rest) =>
        match build_dict [] pairs with
        | Some items => Some (PyDict items, rest)
        | None => None
        end
    | None => None
    end.
Proof. reflexivity. Qed.

Lemma skip_ws_space (s : string) : skip_ws (String " " s) = skip_ws s.
Proof. reflexivity. Qed.

Ltac skip_repr :=
  rewrite ?skip_ws_space;
  match goal with
  | |- context [skip_ws (str_repr ?a ++ ?b)] => rewrite (skip_ws_str_repr a b)
  end.

Ltac read_pair step :=
  erewrite step;
    [| apply parse_value_str_repr; [lia|reflexivity]
     | skip_repr; apply parse_value_str_repr; [lia|reflexivity] ].

Lemma parse_value_subject (f : nat) (e : subject) (rest : string) :
  (5 <= f)%nat ->
  parse_value f (subject_text e rest) = Some (subject_dict e, rest).
Proof.
  intros Hf. destruct f as [|[|[|[|[|f]]]]]; try lia.
  unfold subject_text.
  rewrite parse_value_brace. skip_repr.
  read_pair parse_pairs_more. skip_repr.
  read_pair parse_pairs_more. skip_repr.
  read_pair parse_pairs_last.
  reflexivity.
Qed.

Lemma parse_value_bracket (f : nat) (body : string) :
  parse_value (S f) (String "[" body)
  = match parse_seq f (Some "]"%char) (skip_ws body) with
    | Some (items, _, rest) => Some (PyList items, rest)
    | None => None
    end.
Proof. reflexivity. Qed.

Lemma parse_seq_S (f : nat) (close : option ascii) (s : string) :
  parse_seq (S f) close s
  = match at_close close s with
    | Some rest => Some ([], false, rest)
    | None =>
        match parse_value f s with
        | None => None
        | Some (x, r1) =>
            match skip_ws r1 with
            | String "," r2 =>
                match parse_seq f close (skip_ws r2) with
                | Some (xs, _, rest) => Some (x :: xs, true, rest)
                | None => None
                end
            | r1 =>
                match at_close close r1 with
                | Some rest => Some ([x], false, rest)
                | None => None
                end
            end
        end
    end.
Proof. reflexivity. Qed.

Lemma parse_seq_more (f : nat) (close : option ascii) (s : string)
  (x : pyobj) (r2 : string) :
  at_close close s = None ->
  parse_value f s = Some (x, String "," r2) ->
  parse_seq (S f) close s
  = match parse_seq f close (skip_ws r2) with
    | Some (xs, _, rest) => Some (x :: xs, true, rest)
    | None => None
    end.
Proof. intros Hc Hx. rewrite parse_seq_S, Hc, Hx. reflexivity. Qed.

Lemma parse_seq_last (f : nat) (s : string) (x : pyobj) (rest : string) :
  at_close (Some "]"%char) s = None ->
  parse_value f s = Some (x, String "]" rest) ->
  parse_seq (S f) (Some "]"%char) s = Some ([x], false, rest).
Proof. intros Hc Hx. rewrite parse_seq_S, Hc, Hx. reflexivity. Qed.

Lemma parse_seq_whole (f : nat) (s : string) (x : pyobj) :
  at_close None s = None ->
  parse_value f s = Some (x, EmptyString) ->
  parse_seq (S f) None s = Some ([x], false, EmptyString).
Proof. intros Hc Hx. rewrite parse_seq_S, Hc, Hx. reflexivity. Qed.

Lemma subjects_text_cons (e e' : subject) (l : list subject) (rest : string) :
  subjects_text (e :: e' :: l) rest
  = subject_text e (String "," (String " " (subjects_text (e' :: l) rest))).
Proof. reflexivity. Qed.

Lemma join_cons (x : string) (l : list string) (rest : string) :
  l <> [] -> join ", " (x :: l) ++ rest = x ++ ", " ++ join ", " l ++ rest.
Proof.
  destruct l; [contradiction|]. intros _.
  change (join ", " (x :: s :: l)) with (x ++ ", " ++ join ", " (s :: l)).
  now rewrite !string_app_assoc.
Qed.

Lemma subjects_text_repr (l : list subject) (rest : string) :
  py_repr (PyList (map subject_dict l)) ++ rest
  = String "[" (subjects_text l rest).
Proof.
  change (py_repr (PyList (map subject_dict l)))
    with ("[" ++ join ", " (map py_repr (map subject_dict l)) ++ "]").
  rewrite !string_app_assoc. simpl. f_equal.
  induction l as [|e l IH]; [reflexivity|].
  destruct l as [|e' l].
  - simpl map. simpl join. apply subject_text_repr.
  - rewrite !map_cons, join_cons by discriminate.
    rewrite <- !map_cons, IH, subjects_text_cons, <- subject_text_repr.
    reflexivity.
Qed.

Lemma skip_ws_subjects_text (l : list subject) (rest : string) :
  skip_ws (subjects_text l rest) = subjects_text l rest.
Proof. destruct l as [|e [|e' l]]; reflexivity. Qed.

Lemma parse_seq_subjects (l : list subject) (f : nat) (rest : string) :
  (length l + 6 <= f)%nat ->
  exists comma,
    parse_seq f (Some "]"%char) (subjects_text l rest)
    = Some (map subject_dict l, comma, rest).
Proof.
  revert f. induction l as [|e l IH]; intros f Hf.
  - destruct f; [simpl in Hf; lia|]. exists false. reflexivity.
  - destruct f as [|f]; [simpl in Hf; lia|]. simpl in Hf.
    destruct l as [|e' l].
    + exists false. apply parse_seq_last; [reflexivity|].
      apply parse_value_subject. lia.
    + destruct (IH f ltac:(simpl in *; lia)) as [c Hc].
      exists true. rewrite subjects_text_cons.
      erewrite parse_seq_more;
        [| reflexivity | apply parse_value_subject; lia].
      rewrite skip_ws_space, skip_ws_subjects_text, Hc. reflexivity.
Qed.

Lemma subjects_text_length (l : list subject) (rest : string) :
  (length l + 1 <= String.length (subjects_text l rest))%nat.
Proof.
  induction l as [|e l IH]; [simpl; lia|].
  destruct l as [|e' l].
  - change (subjects_text [e] rest) with (subject_text e (String "]" rest)).
    rewrite <- subject_text_repr, string_length_app. simpl. lia.
  - rewrite subjects_text_cons, <- subject_text_repr, string_length_app.
    change (String.length (String "," (String " " ?s)))
      with (S (S (String.length s))).
    simpl length in *. lia.
Qed.

(** The text written for a list of subject dicts is read back as that
    list. *)
Lemma literal_eval_subjects (l : list subject) :
  literal_eval (py_repr (PyList (map subject_dict l)))
  = Some (PyList (map subject_dict l)).
Proof.
  assert (E : py_repr (PyList (map subject_dict l))
              = String "[" (subjects_text l EmptyString)).
  { rewrite <- subjects_text_repr.
    generalize (py_repr (PyList (map subject_dict l))).
    intros s. induction s; simpl; congruence. }
  unfold literal_eval. rewrite E.
  change (skip_ws (String "[" ?s)) with (String "[" s).
  pose proof (subjects_text_length l EmptyString) as Hlen.
  remember (2 * String.length (String "[" (subjects_text l "")) + 4)%nat
    as fuel eqn:Ef.
  simpl String.length in Ef.
  destruct fuel as [|[|fuel]]; try lia.
  destruct (parse_seq_subjects l fuel EmptyString ltac:(lia)) as [c Hc].
  erewrite parse_seq_whole; [reflexivity|reflexivity|].
  rewrite parse_value_bracket, skip_ws_subjects_text, Hc. reflexivity.
Qed.

End LiteralFacts.

(** ** Credential renderer: the subjects section *)

Module RendererFacts.
Import PyText PyValue Store Literal Renderer LiteralFacts.
#[local] Arguments String.append !_ _ / : simpl nomatch.





(** For the subjects of the form every turn of the loop goes through. *)
Lemma draw_subjects_form (l : list subject) (y : Z) :
  exists ops y', draw_subjects (map subject_dict l) y = Some (ops, y').
Proof.
  revert y. induction l as [|e l IH]; intros y; simpl; [eauto|].
  destruct (y - 7 <? 60)%Z; [eauto|].
  destruct (IH (y - 7)%Z) as (ops & y' & ->). eauto.
Qed.






End RendererFacts.

(** ** The page, the files of a ticket and the pages of the shell *)

Module TicketFacts.
Import PyText PyValue Store Literal Encoder Shell Renderer Ticket.
Import StoreFacts ShellFacts LiteralFacts RendererFacts.
#[local] Arguments String.append !_ _ / : simpl nomatch.

Lemma contains_app_sep (c : ascii) (a b : string) :
  contains c (a ++ String c b) = true.
Proof.
  induction a as [|d a IH]; simpl.
  - now rewrite Ascii.eqb_refl.
  - rewrite IH. apply orb_true_r.
Qed.

(** X1: the payload [generate_hall_ticket_url] builds is never accepted by
    the download page: it has two colons, so the page reports it as invalid
    and keeps what was typed. *)
Theorem legacy_url_refused (unique_id : string) (ticket : cell)
  (hall_ticket_id roll_number : string) :
  read_qr_data hall_ticket_id roll_number
    (generate_hall_ticket_url unique_id ticket)
  = (hall_ticket_id, roll_number, [qr_invalid]).
Proof.
  unfold read_qr_data, generate_hall_ticket_url.
  change ("HALL_TICKET_ID:" ++ cell_str ticket ++ ":" ++ unique_id)
    with ("HALL_TICKET_ID"
            ++ String ":" (cell_str ticket ++ String ":" unique_id)).
  rewrite nonempty_append, split_at_sep by reflexivity.
  destruct (split_with_sep ":" _
              (contains_app_sep ":" (cell_str ticket) unique_id))
    as (x & y & l & ->).
  reflexivity.
Qed.

(** X2: two pairs of ticket id and roll number with no colon in them
    that give the same payload are the same pair. *)
Theorem qr_data_injective (T R T' R' : string) :
  contains ":" T = false -> contains ":" R = false ->
  contains ":" T' = false -> contains ":" R' = false ->
  create_scannable_qr_data (CStr T) (CStr R)
  = create_scannable_qr_data (CStr T') (CStr R') ->
  T = T' /\ R = R'.
Proof.
  intros HT HR HT' HR' E.
  unfold create_scannable_qr_data in E. simpl cell_str in E.
  change (T ++ ":" ++ R) with (T ++ String ":" R) in E.
  change (T' ++ ":" ++ R') with (T' ++ String ":" R') in E.
  apply (f_equal (split ":")) in E.
  rewrite !split_at_sep, !split_no_sep in E by assumption.
  now injection E.
Qed.

Lemma qr_data_injective_witness :
  "1A2B3C4D" = "1A2B3C4D" /\ "R100" = "R100".
Proof.
  exact (qr_data_injective "1A2B3C4D" "R100" "1A2B3C4D" "R100"
           eq_refl eq_refl eq_refl eq_refl eq_refl).
Defined.

Lemma string_app_inj_length (a a' b b' : string) :
  String.length a = String.length a' ->
  a ++ b = a' ++ b' -> a = a' /\ b = b'.
Proof.
  revert a'. induction a as [|c a IH]; intros [|c' a'] Hl E;
    simpl in *; try discriminate; auto.
  injection E as -> E. injection Hl as Hl.
  destruct (IH _ Hl E) as [-> ->]. auto.
Qed.

(** X3: two tickets whose ids are as long as each other (every ticket id
    has eight characters) have the same file name only when they have the
    same roll number and the same id, so deleting one ticket's document
    cannot delete another's. *)
Theorem pdf_name_injective (r t r' t' : string) :
  String.length t = String.length t' ->
  pdf_name (CStr r) (CStr t) = pdf_name (CStr r') (CStr t') ->
  r = r' /\ t = t'.
Proof.
  intros Hl E. unfold pdf_name in E. simpl cell_str in E.
  apply (string_app_inj_length "hall_ticket_" "hall_ticket_") in E as [_ E];
    [|reflexivity].
  assert (Hlen : String.length r = String.length r').
  { apply (f_equal String.length) in E.
    rewrite !string_length_app in E. simpl in E. lia. }
  apply string_app_inj_length in E as [-> E]; [|exact Hlen].
  split; [reflexivity|].
  apply (string_app_inj_length "_" "_") in E as [_ E]; [|reflexivity].
  now apply string_app_inj_length in E as [-> _].
Qed.

Lemma pdf_name_injective_witness :
  "R100" = "R100" /\ "1A2B3C4D" = "1A2B3C4D".
Proof.
  exact (pdf_name_injective "R100" "1A2B3C4D" "R100" "1A2B3C4D"
           eq_refl eq_refl).
Defined.

(** ** Render *)

Lemma generate_qr_code_200 (qr_make_image : string -> outcome image)
  (data : string) :
  exists img msgs,
    generate_qr_code qr_make_image data 200 = (Returns img, msgs).
Proof.
  unfold generate_qr_code. destruct (qr_make_image data); simpl; eauto.
Qed.

(** The render in terms of its page. *)
Lemma render_cases (qr_make_image : string -> outcome image)
  (current_year : Z) (student_data : row) (w : world) :
  exists msgs,
    generate_hall_ticket_pdf qr_make_image current_year student_data w
    = match page current_year student_data with
      | Some _ =>
          (Some (pdf_name (roll_number student_data)
                   (hall_ticket_id student_data)),
           remove_file (qr_name (roll_number student_data))
             (write_file (pdf_name (roll_number student_data)
                            (hall_ticket_id student_data))
                (write_file (qr_name (roll_number student_data))
                   (show msgs w))))
      | None =>
          (None,
           st_error "Error generating PDF: "
             (write_file (qr_name (roll_number student_data)) (show msgs w)))
      end.
Proof.
  unfold generate_hall_ticket_pdf.
  destruct (generate_qr_code_200 qr_make_image
              (create_scannable_qr_data (hall_ticket_id student_data)
                 (roll_number student_data))) as (img & msgs & ->).
  exists msgs. destruct (page current_year student_data); reflexivity.
Qed.


Lemma draw_subjects_cons (subject : pyobj) (rest : list pyobj) (y : Z) :
  draw_subjects (subject :: rest) y
  = match draw_subject subject y with
    | None => None
    | Some ops =>
        if (y - 7 <? 60)%Z then Some (ops, (y - 7)%Z)
        else match draw_subjects rest (y - 7) with
             | Some (more, y') => Some ((ops ++ more)%list, y')
             | None => None
             end
    end.
Proof. reflexivity. Qed.


Lemma normalize_form_text (l : list subject) :
  normalize_subjects (PyStr (py_str (PyList (map subject_dict l))))
  = PyList (map subject_dict l).
Proof.
  unfold normalize_subjects, py_str. now rewrite literal_eval_subjects.
Qed.




Lemma page_top_y (current_year : Z) (student_data : row) :
  snd (page_top current_year student_data) = 181%Z.
Proof. reflexivity. Qed.



(** The page is written exactly when its subjects section, which starts
    181 mm up, goes through. *)
Lemma page_of_section (current_year : Z) (student_data : row) :
  page current_year student_data
  = match subjects_section (subjects student_data) 181 with
    | None => None
    | Some (section, y) =>
        Some (fst (page_top current_year student_data)
              ++ map Draw section ++ page_bottom y)%list
    end.
Proof. reflexivity. Qed.



Lemma above_weaken (y y' : Z) (ops : list draw_op) :
  (y' <= y)%Z -> Forall (above y) ops -> Forall (above y') ops.
Proof.
  intros Hy H. eapply Forall_impl; [exact H|]. intros []; simpl; auto. lia.
Qed.

Lemma draw_subject_heights (subject : pyobj) (y : Z) (row : list draw_op) :
  draw_subject subject y = Some row -> Forall (above (y - 7)) row.
Proof.
  unfold draw_subject. intros E.
  destruct subject;
    try (injection E as <-; repeat constructor; simpl; lia).
  destruct (as_text (dict_get items "code")); [|discriminate].
  destruct (as_text (dict_get items "name")); [|discriminate].
  destruct (as_text (dict_get items "date")); [|discriminate].
  injection E as <-. repeat constructor; simpl; lia.
Qed.

Lemma draw_subjects_heights (items : list pyobj) (y : Z)
  (ops : list draw_op) (y' : Z) :
  draw_subjects items y = Some (ops, y') ->
  (y - 7 * Z.of_nat (length items) <= y' <= y)%Z /\ Forall (above y') ops.
Proof.
  revert y ops y'. induction items as [|subject rest IH]; intros y ops y'.
  - intros [= <- <-]. simpl. split; [lia|constructor].
  - rewrite draw_subjects_cons.
    destruct (draw_subject subject y) as [row|] eqn:Erow; [|discriminate].
    apply draw_subject_heights in Erow.
    destruct (y - 7 <? 60)%Z.
    + intros [= <- <-]. simpl length. split; [lia|exact Erow].
    + destruct (draw_subjects rest (y - 7)) as [[more y'']|] eqn:Emore;
        [|discriminate].
      intros [= <- <-]. destruct (IH _ _ _ Emore) as [Hy Hmore].
      simpl length. split; [lia|].
      apply Forall_app. split; [|exact Hmore].
      apply (above_weaken (y - 7)); [lia|exact Erow].
Qed.

Lemma subjects_section_heights (v : pyobj) (y : Z)
  (ops : list draw_op) (y' : Z) :
  subjects_section v y = Some (ops, y') ->
  (y - 9 - 7 * Z.of_nat (match py_iter (normalize_subjects v) with
                         | Some items => length items
                         | None => 0
                         end) <= y')%Z
  /\ Forall (above y') ops.
Proof.
  unfold subjects_section.
  destruct (py_truthy (normalize_subjects v)); simpl negb; cbv iota.
  - destruct (py_iter (normalize_subjects v)) as [items|]; [|discriminate].
    destruct (draw_subjects items (y - 5 - 4)) as [[rows y'']|] eqn:E;
      [|discriminate].
    intros [= <- <-]. apply draw_subjects_heights in E as [Hy Hrows].
    split; [lia|].
    repeat (constructor; [simpl; first [exact I|lia]|]). exact Hrows.
  - intros [= <- <-]. split; [lia|]. repeat constructor; simpl; lia.
Qed.

Lemma page_top_clear (current_year : Z) (student_data : row) :
  Forall clear_of_signatures (fst (page_top current_year student_data)).
Proof.
  unfold page_top, page_height. simpl.
  repeat (constructor; [simpl; try exact I; left; lia|]). constructor.
Qed.

Lemma page_bottom_clear (y : Z) :
  (102 <= y)%Z -> Forall clear_of_signatures (page_bottom y).
Proof.
  intros Hy. unfold page_bottom, page_foot, page_width. simpl.
  repeat (constructor; [simpl; try exact I; try (left; lia); right; auto|]).
  constructor.
Qed.

(** X5: on a page with at most ten subjects (the most the form takes)
    every text written with [drawString] is 6 cm up the page or higher, but
    for the two captions at the signature lines, 4 cm up: the instructions
    never run into the signatures. *)
Theorem page_clear_of_signatures (current_year : Z) (student_data : row)
  (ops : list canvas_op) :
  page current_year student_data = Some ops ->
  match py_iter (normalize_subjects (subjects student_data)) with
  | Some items => (length items <= 10)%nat
  | None => True
  end ->
  Forall clear_of_signatures ops.
Proof.
  rewrite page_of_section.
  destruct (subjects_section (subjects student_data) 181)
    as [[section y]|] eqn:E; [|discriminate].
  pose proof (page_top_clear current_year student_data) as Htop.
  remember (fst (page_top current_year student_data)) as top eqn:Etop.
  clear Etop.
  intros H Hlen. apply subjects_section_heights in E as [Hy Hsec].
  assert (Hy' : (102 <= y)%Z).
  { destruct (py_iter (normalize_subjects (subjects student_data))); lia. }
  pose proof (page_bottom_clear y Hy') as Hbottom.
  remember (page_bottom y) as bottom eqn:Ebottom. clear Ebottom.
  injection H as <-.
  apply Forall_app. split; [exact Htop|]. apply Forall_app.
  split; [|exact Hbottom].
  apply Forall_map. eapply Forall_impl; [exact Hsec|].
  intros []; simpl; auto. lia.
Qed.

Lemma page_clear_of_signatures_witness :
  Forall clear_of_signatures (default [] (page 2024 (record_row kumar))).
Proof.
  exact (page_clear_of_signatures 2024 (record_row kumar) _ eq_refl
           ltac:(simpl; lia)).
Defined.

Lemma pdf_is_not_qr (roll ticket roll' : cell) :
  pdf_name roll ticket <> qr_name roll'.
Proof. discriminate. Qed.


Lemma stored_rows_db (w w' : world) :
  db w = db w' -> stored_rows w = stored_rows w'.
Proof.
  unfold stored_rows, load_database. intros H. rewrite H.
  destruct (db w'); reflexivity.
Qed.

Lemma load_database_rows (w : world) :
  rows (fst (load_database w)) = stored_rows w
  /\ stored_rows (snd (load_database w)) = stored_rows w
  /\ temp_dir (snd (load_database w)) = temp_dir w.
Proof.
  unfold stored_rows, load_database.
  destruct (db w) eqn:E; simpl; rewrite ?E; auto.
Qed.

Lemma show_nil (msgs : list (level * string)) (w : world) :
  show [] (show msgs w) = show msgs w.
Proof. unfold show. simpl. now rewrite app_nil_r. Qed.

Section PagesFacts.
Variable qr_make_image : string -> outcome image.
Variable current_year : Z.
Variable b64_of_file : string -> string.
Variable download_label : string.

(** X6: when [generate_hall_ticket_pdf] returns a path, it is the name
    [delete_from_database] computes from the record's roll number and ticket
    id; that file is then in [TEMP_DIR], the image of the code is not, every
    other file is as before, and the store's file is untouched. *)
Theorem render_files (student_data : row) (w w' : world) (path : string) :
  generate_hall_ticket_pdf qr_make_image current_year student_data w
  = (Some path, w') ->
  path = pdf_name (roll_number student_data) (hall_ticket_id student_data)
  /\ temp_dir w'
     = (temp_dir w ∪ {[ path ]}) ∖ {[ qr_name (roll_number student_data) ]}
  /\ path ∈ temp_dir w'
  /\ db w' = db w.
Proof using qr_make_image current_year.
  clear b64_of_file download_label.
  destruct (render_cases qr_make_image current_year student_data w)
    as [msgs ->].
  destruct (page current_year student_data); [|discriminate].
  intros [= <- <-]. simpl.
  pose proof (pdf_is_not_qr (roll_number student_data)
                (hall_ticket_id student_data) (roll_number student_data))
    as Hne.
  repeat split.
  - apply leibniz_equiv. intros f.
    rewrite !elem_of_difference, !elem_of_union, !elem_of_singleton.
    intuition congruence.
  - rewrite elem_of_difference, !elem_of_union, !elem_of_singleton.
    intuition congruence.
Qed.




Lemma render_db (student_data : row) (w : world) :
  db (snd (generate_hall_ticket_pdf qr_make_image current_year
             student_data w)) = db w.
Proof using qr_make_image current_year.
  destruct (render_cases qr_make_image current_year student_data w)
    as [msgs ->].
  now destruct (page current_year student_data).
Qed.

Lemma get_download_link_db (file_path link_text : string) (w : world) :
  db (snd (get_download_link b64_of_file file_path link_text w)) = db w
  /\ temp_dir (snd (get_download_link b64_of_file file_path link_text w))
     = temp_dir w.
Proof using b64_of_file.
  unfold get_download_link, get_binary_file_downloader_html.
  now destruct (bool_decide _).
Qed.

(** X9: whatever is typed or scanned, the download page leaves the rows
    of the store as they were. *)
Theorem endpoint_keeps_store (hall_ticket_id roll_number qr_data : string)
  (submit_button : bool) (w : world) :
  stored_rows
    (snd (create_qr_download_endpoint qr_make_image current_year b64_of_file
            hall_ticket_id roll_number qr_data submit_button w))
  = stored_rows w.
Proof using qr_make_image current_year b64_of_file.
  unfold create_qr_download_endpoint.
  destruct submit_button; [|reflexivity].
  destruct (read_qr_data hall_ticket_id roll_number qr_data) as [[h r] msgs].
  destruct (negb (nonempty h) || negb (nonempty r));
    [apply stored_rows_db; reflexivity|].
  destruct (load_database_rows (show msgs w)) as (_ & Hload & _).
  destruct (load_database (show msgs w)) as [df w1]. simpl in Hload.
  rewrite (stored_rows_db (show msgs w) w eq_refl) in Hload.
  rewrite <- Hload.
  destruct (rows (df_select _ df)) as [|student_data rest];
    [apply stored_rows_db; reflexivity|].
  pose proof (render_db student_data w1) as Hdb.
  destruct (generate_hall_ticket_pdf _ _ student_data w1) as [[path|] w2];
    simpl in Hdb.
  - pose proof (get_download_link_db path "Download Hall Ticket"
                  (st_success "Hall Ticket found!" w2)) as [Hl _].
    destruct (get_download_link _ _ _ _) as [link w3]. simpl in *.
    apply stored_rows_db. congruence.
  - apply stored_rows_db. simpl. congruence.
Qed.

(** X10: submitting the payload of a ticket (ticket id and roll number
    with no colon) does what typing the two values does, after the message
    that the code was read; what was typed beside the payload is ignored. *)
Theorem scan_as_typed (T R hall_ticket_id roll_number : string) (w : world) :
  contains ":" T = false ->
  contains ":" R = false ->
  create_qr_download_endpoint qr_make_image current_year b64_of_file
    hall_ticket_id roll_number (create_scannable_qr_data (CStr T) (CStr R))
    true w
  = create_qr_download_endpoint qr_make_image current_year b64_of_file
      T R EmptyString true (show [qr_processed T R] w).
Proof using qr_make_image current_year b64_of_file.
  intros HT HR. unfold create_qr_download_endpoint.
  assert (E : read_qr_data hall_ticket_id roll_number
                (create_scannable_qr_data (CStr T) (CStr R))
              = (T, R, [qr_processed T R])).
  { unfold read_qr_data, create_scannable_qr_data. simpl cell_str.
    change (T ++ ":" ++ R) with (T ++ String ":" R).
    rewrite nonempty_append, (split_at_sep _ _ _ HT), (split_no_sep _ _ HR).
    reflexivity. }
  rewrite E. change (read_qr_data T R "") with (T, R, @nil (level * string)).
  cbv beta iota zeta. now rewrite show_nil.
Qed.





End PagesFacts.

Lemma render_files_witness :
  "hall_ticket_R100_1A2B3C4D.pdf" = pdf_name (CStr "R100") (CStr "1A2B3C4D")
  /\ temp_dir (snd (generate_hall_ticket_pdf symbol_330 2024
                      (record_row kumar) fresh))
     = (temp_dir fresh ∪ {[ "hall_ticket_R100_1A2B3C4D.pdf" ]})
       ∖ {[ qr_name (CStr "R100") ]}
  /\ ("hall_ticket_R100_1A2B3C4D.pdf"
      ∈ temp_dir (snd (generate_hall_ticket_pdf symbol_330 2024
                         (record_row kumar) fresh)))
  /\ db (snd (generate_hall_ticket_pdf symbol_330 2024
                (record_row kumar) fresh))
     = db fresh.
Proof.
  exact (render_files symbol_330 2024 (record_row kumar) fresh _ _ eq_refl).
Defined.



Lemma scan_as_typed_witness :
  create_qr_download_endpoint symbol_330 2024 (fun _ => EmptyString)
    "" "" (create_scannable_qr_data (CStr "1A2B3C4D") (CStr "R100")) true
    saved
  = create_qr_download_endpoint symbol_330 2024 (fun _ => EmptyString)
      "1A2B3C4D" "R100" EmptyString true
      (show [qr_processed "1A2B3C4D" "R100"] saved).
Proof.
  exact (scan_as_typed symbol_330 2024 (fun _ => EmptyString)
           "1A2B3C4D" "R100" "" "" saved eq_refl eq_refl).
Defined.


Lemma repr_list_nonempty (items : list pyobj) :
  nonempty (py_repr (PyList items)) = true.
Proof. reflexivity. Qed.

(** X13: for a record saved from the form the browse page shows every
    subject with its code, its name in full (not cut as on the page) and its
    date, and the heading alone when there is no subject. *)
Theorem view_saved_subjects (sd : student_data) :
  view_subjects (subjects (csv_row (record_row sd)))
  = match sd_subjects sd with
    | [] => HeadingOnly
    | l =>
        SubjectsTable
          (map (fun s => (PyStr (subject_code s), PyStr (subject_name s),
                          PyStr (subject_date s))) l)
    end.
Proof.
  change (subjects (csv_row (record_row sd)))
    with (PyStr (py_repr (PyList (map subject_dict (sd_subjects sd))))).
  unfold view_subjects.
  change (py_truthy (PyStr ?s)) with (nonempty s).
  rewrite repr_list_nonempty, literal_eval_subjects.
  destruct (sd_subjects sd) as [|e l]; [reflexivity|].
  change (py_truthy (PyList (map subject_dict (e :: l)))) with true.
  cbv iota. now rewrite map_map.
Qed.

(** X14: when the store's file cannot be read, saving a record replaces
    it by a table with that record alone, and deleting replaces it by an
    empty table: what the file held is lost, and the read error is shown. *)
Theorem unreadable_store_overwritten (why : string) (sd : student_data)
  (roll ticket : cell) (w : world) :
  db w = Unreadable why ->
  db (snd (save_to_database sd w))
  = Csv {| columns := db_columns; rows := [record_row sd] |}
  /\ db (snd (delete_from_database roll ticket w)) = Csv empty_frame
  /\ shown (snd (save_to_database sd w))
     = (shown w ++ [(Error, String.append "Error loading database: " why)])%list.
Proof.
  intros E. unfold save_to_database, delete_from_database, load_database.
  rewrite E. simpl. repeat split.
  now destruct (bool_decide _).
Qed.

Lemma unreadable_store_overwritten_witness :
  db (snd (save_to_database kumar corrupt))
  = Csv {| columns := db_columns; rows := [record_row kumar] |}
  /\ db (snd (delete_from_database (CStr "R100") (CStr "1A2B3C4D") corrupt))
     = Csv empty_frame
  /\ shown (snd (save_to_database kumar corrupt))
     = (shown corrupt
        ++ [(Error,
             String.append "Error loading database: "
               "No columns to parse from file")])%list.
Proof.
  exact (unreadable_store_overwritten "No columns to parse from file" kumar
           (CStr "R100") (CStr "1A2B3C4D") corrupt eq_refl).
Defined.

End TicketFacts.
